(** * Registration and login service: a shallow embedding of server.js and db.js

    The two request handlers of server.js (POST /api/register and
    POST /api/login), the lazy bootstrap [ensureDb], and [initDatabase]
    with the users schema of db.js are written here as functions over an
    explicit world: the backing store, the module-level variables of
    server.js, the entropy bcrypt draws its salts from, and the trace of
    operations sent through the pool.

    [pool] is the pg Pool that db.js builds and exports.  db.js uses its
    [connect] and, on the client, [query] and [release]; server.js calls
    [pool.execute], which a pg Pool does not have (db.js exports an
    [execute] helper of its own, which server.js does not import), so that
    call throws a TypeError before anything is sent.

    Outside the sources, and therefore parameters of the development:
    - bcrypt ([bcrypt.hash], [bcrypt.compare]), the class [Bcrypt];
    - the reachability of the store, a field of the world.

    Request fields are strings or absent (the documented interface).  A
    string is a sequence of code units below 256. *)

From Stdlib Require Import String Ascii List Bool ZArith Lia.
Import ListNotations.
Open Scope string_scope.

(** ** JavaScript strings and values *)

Module Js.

(** WhiteSpace and LineTerminator code units removed by
    [String.prototype.trim]: TAB, LF, VT, FF, CR, SP, NBSP. *)
Definition is_white_space (c : ascii) : bool :=
  let n := nat_of_ascii c in
  ((9 <=? n) && (n <=? 13) || (n =? 32) || (n =? 160))%nat.

Fixpoint trim_start (s : string) : string :=
  match s with
  | EmptyString => EmptyString
  | String c rest => if is_white_space c then trim_start rest else s
  end.

(** [trim_end] keeps a character when it is not white space or when
    something remains after it. *)
Fixpoint trim_end (s : string) : string :=
  match s with
  | EmptyString => EmptyString
  | String c rest =>
      match trim_end rest with
      | EmptyString => if is_white_space c then EmptyString else String c EmptyString
      | kept => String c kept
      end
  end.

(** [s.trim()] *)
Definition trim (s : string) : string := trim_end (trim_start s).

(** [hay.includes(needle)] *)
Fixpoint includes (hay needle : string) : bool :=
  prefix needle hay ||
  match hay with
  | EmptyString => false
  | String _ rest => includes rest needle
  end.

(** A request field: [None] is a property absent from the body
    (undefined), [Some s] a string. *)
Definition value := option string.

(** ToBoolean: undefined and the empty string are falsy, every other
    string is truthy. *)
Definition truthy (v : value) : bool :=
  match v with
  | None => false
  | Some s => negb (s =? "")
  end.

(** The string a field holds once it is known to be truthy. *)
Definition str (v : value) : string :=
  match v with
  | None => ""
  | Some s => s
  end.

(** An error object, as far as the handlers inspect it: [err.code] and
    [err.message]. *)
Record error := mk_error {
  err_code : option string;
  err_message : option string
}.

(** [err.code === c] *)
Definition code_is (e : error) (c : string) : bool :=
  match err_code e with
  | Some k => k =? c
  | None => false
  end.

(** [err.message && err.message.includes(m)] *)
Definition message_includes (e : error) (m : string) : bool :=
  match err_message e with
  | Some k => negb (k =? "") && includes k m
  | None => false
  end.

End Js.

(** ** The users relation (db.js, CREATE_USERS_TABLE_SQL) *)

Module Db.

(** One row of [users]. *)
Record user := mk_user {
  id : Z;
  user_id : string;
  name : string;
  email : string;
  phone : string;
  password : string;
  created_at : Z
}.

(** Statement texts of the application. *)
Inductive sql :=
| CreateUsersTable
    (* CREATE TABLE IF NOT EXISTS users (...) *)
| InsertUser (u n e p h : string)
    (* INSERT INTO users (user_id, name, email, phone, password) VALUES (?, ?, ?, ?, ?) *)
| SelectUser (a b : string).
    (* SELECT id, user_id, email, password FROM users WHERE user_id = ? OR email = ? *)

(** The store: [fault] is [Some e] while the store cannot be reached
    (every connection attempt and every statement rejects with [e]);
    [users] is [None] until the table exists. *)
Record store := mk_store {
  fault : option Js.error;
  users : option (list user);
  next_id : Z;
  clock : Z
}.

(** CREATE TABLE IF NOT EXISTS users: an existing table is left alone. *)
Definition create_table_if_not_exists (s : store) : store :=
  match users s with
  | Some _ => s
  | None => mk_store (fault s) (Some []) (next_id s) (clock s)
  end.

End Db.

(** ** bcrypt *)

(** [bcrypt.hash(data, rounds)] with the salt it generates made explicit,
    and [bcrypt.compare(data, encrypted)]. *)
Class Bcrypt := {
  bcrypt_hash : string -> nat -> string -> string;
  bcrypt_compare : string -> string -> bool
}.

(** ** The process: module state of server.js, the pool, the store *)

Module Server.

Import Js Db.

(** What goes through the pool. *)
Inductive pool_op :=
| Connect
| Release
| Query (q : sql).

(** A settled promise of [initDatabase()]. *)
Inductive settled :=
| Resolved
| Rejected (e : error).

(** [dbReady] and [dbInitError] are the two module variables of
    server.js ([None] is null); [entropy] and [draws] are the random
    source of bcrypt's salts; [trace] lists, oldest first, every
    operation attempted on the pool. *)
Record world := mk_world {
  db : store;
  dbReady : option settled;
  dbInitError : option error;
  entropy : nat -> string;
  draws : nat;
  trace : list pool_op
}.

Definition set_db (s : store) (w : world) : world :=
  mk_world s (dbReady w) (dbInitError w) (entropy w) (draws w) (trace w).

Definition set_dbReady (p : option settled) (w : world) : world :=
  mk_world (db w) p (dbInitError w) (entropy w) (draws w) (trace w).

Definition set_dbInitError (e : option error) (w : world) : world :=
  mk_world (db w) (dbReady w) e (entropy w) (draws w) (trace w).

Definition log (o : pool_op) (w : world) : world :=
  mk_world (db w) (dbReady w) (dbInitError w) (entropy w) (draws w)
           (trace w ++ [o])%list.

(** An awaited computation: it returns or throws, and leaves a world. *)
Definition io (A : Type) : Type := world -> (error + A) * world.

Definition ret {A} (a : A) : io A := fun w => (inr a, w).

Definition throw {A} (e : error) : io A := fun w => (inl e, w).

Definition bind {A B} (m : io A) (k : A -> io B) : io B :=
  fun w =>
    match m w with
    | (inr a, w1) => k a w1
    | (inl e, w1) => (inl e, w1)
    end.

(** try { m } catch (err) { h err } *)
Definition catch {A} (m : io A) (h : error -> io A) : io A :=
  fun w =>
    match m w with
    | (inr a, w1) => (inr a, w1)
    | (inl e, w1) => h e w1
    end.

(** try { m } finally { f } where [f] does not throw. *)
Definition finally {A} (m : io A) (f : world -> world) : io A :=
  fun w => let (r, w1) := m w in (r, f w1).

Notation "x <- m ;; k" := (bind m (fun x => k))
  (at level 61, m at next level, right associativity).
Notation "m ;; k" := (bind m (fun _ => k))
  (at level 61, right associativity).

(** The TypeError of a call to a property that is no function; such an
    error has no [code]. *)
Definition not_a_function (callee : string) : error :=
  mk_error None (Some (callee ++ " is not a function")).

Section Handlers.

Context {B : Bcrypt}.

(** [pool.connect()] *)
Definition pool_connect : io unit :=
  fun w =>
    match fault (db w) with
    | Some e => (inl e, log Connect w)
    | None => (inr tt, log Connect w)
    end.

(** db.js, [client.query(CREATE_USERS_TABLE_SQL)]: the statement is
    sent; an unreachable store rejects it, a reachable one creates the
    table if it is missing. *)
Definition client_query_create : io unit :=
  fun w =>
    match fault (db w) with
    | Some e => (inl e, log (Query CreateUsersTable) w)
    | None =>
        (inr tt, set_db (create_table_if_not_exists (db w))
                        (log (Query CreateUsersTable) w))
    end.

(** server.js, [pool.execute(text, params)]: the parameters are
    evaluated, then the call throws, [pool.execute] being undefined;
    nothing goes through the pool. *)
Definition pool_execute (q : sql) : io (list user) :=
  throw (not_a_function "pool.execute").

(** [bcrypt.hash(data, rounds)]: one salt is drawn. *)
Definition hash (data : string) (rounds : nat) : io string :=
  fun w =>
    (inr (bcrypt_hash data rounds (entropy w (draws w))),
     mk_world (db w) (dbReady w) (dbInitError w) (entropy w) (S (draws w)) (trace w)).

(** [bcrypt.compare(data, encrypted)] *)
Definition compare (data encrypted : string) : io bool :=
  ret (bcrypt_compare data encrypted).

(** db.js, [initDatabase]: connect, create the table if missing, and
    release the client in [finally] when one was obtained.  The [catch]
    block logs and rethrows. *)
Definition initDatabase : io unit :=
  fun w =>
    match pool_connect w with
    | (inl e, w1) => (inl e, w1)
    | (inr _, w1) =>
        finally (catch client_query_create throw) (log Release) w1
    end.

(** server.js, [ensureDb], followed by the [await] of the promise it
    returns: a failed initialisation is forgotten and retried, a settled
    one is reused. *)
Definition ensureDb : io unit :=
  fun w =>
    let w1 :=
      match dbInitError w with
      | Some _ => set_dbInitError None (set_dbReady None w)
      | None => w
      end in
    let w2 :=
      match dbReady w1 with
      | Some _ => w1
      | None =>
          match initDatabase w1 with
          | (inr _, w') => set_dbReady (Some Resolved) w'
          | (inl e, w') => set_dbInitError (Some e) (set_dbReady (Some (Rejected e)) w')
          end
      end in
    match dbReady w2 with
    | Some (Rejected e) => (inl e, w2)
    | _ => (inr tt, w2)
    end.

(** [res.status(s).json({ success, message })]; [res.json] alone leaves
    the status at 200. *)
Record response := mk_response {
  status : nat;
  success : bool;
  message : string
}.

Definition all_fields_required :=
  mk_response 400 false "All fields are required.".
Definition registration_successful :=
  mk_response 200 true "Registration successful. Redirecting to login...".
Definition already_exists :=
  mk_response 400 false "User ID or Email already exists.".
Definition register_configuration_error :=
  mk_response 500 false "Database configuration error. Please check server logs.".
Definition connection_failed :=
  mk_response 500 false "Database connection failed. Please try again later.".
Definition server_error :=
  mk_response 500 false "Server error. Please try again.".
Definition credentials_required :=
  mk_response 400 false "User ID/Email and password are required.".
Definition invalid_credentials :=
  mk_response 401 false "Invalid User ID/Email or password.".
Definition login_successful :=
  mk_response 200 true "Login successful!".
Definition login_configuration_error :=
  mk_response 500 false "Database configuration error. Check Vercel environment variables.".
Definition host_not_found :=
  mk_response 500 false "Database host not found. Check DB_HOST environment variable.".

(** The body of POST /api/register. *)
Record register_body := mk_register_body {
  r_user_id : value;
  r_name : value;
  r_email : value;
  r_phone : value;
  r_password : value
}.

(** The [catch] block of the register handler. *)
Definition register_catch (err : error) : response :=
  if code_is err "ER_DUP_ENTRY" then already_exists
  else if message_includes err "DB_PASSWORD" then register_configuration_error
  else if code_is err "ECONNREFUSED" || code_is err "ETIMEDOUT" then connection_failed
  else server_error.

(** The [try] block of the register handler. *)
Definition register_try (b : register_body) : io response :=
  ensureDb ;;
  hashedPassword <- hash (str (r_password b)) 10 ;;
  pool_execute (InsertUser (trim (str (r_user_id b))) (trim (str (r_name b)))
                           (trim (str (r_email b))) (trim (str (r_phone b)))
                           hashedPassword) ;;
  ret registration_successful.

(** !user_id || !name || !email || !phone || !password *)
Definition register_incomplete (b : register_body) : bool :=
  negb (truthy (r_user_id b)) || negb (truthy (r_name b)) ||
  negb (truthy (r_email b)) || negb (truthy (r_phone b)) ||
  negb (truthy (r_password b)).

(** app.post('/api/register', ...) *)
Definition register (b : register_body) (w : world) : response * world :=
  if register_incomplete b then (all_fields_required, w)
  else
    match register_try b w with
    | (inr res, w1) => (res, w1)
    | (inl err, w1) => (register_catch err, w1)
    end.

(** The body of POST /api/login. *)
Record login_body := mk_login_body {
  l_loginId : value;
  l_password : value
}.

(** The [catch] block of the login handler. *)
Definition login_catch (err : error) : response :=
  if message_includes err "DB_PASSWORD" then login_configuration_error
  else if code_is err "ECONNREFUSED" || code_is err "ETIMEDOUT" ||
          code_is err "PROTOCOL_CONNECTION_LOST" then connection_failed
  else if code_is err "ENOTFOUND" then host_not_found
  else server_error.

(** The [try] block of the login handler: one SELECT, then the first
    row, if any, decides. *)
Definition login_try (b : login_body) : io response :=
  ensureDb ;;
  rows <- pool_execute (SelectUser (trim (str (l_loginId b))) (trim (str (l_loginId b)))) ;;
  match rows with
  | [] => ret invalid_credentials
  | user :: _ =>
      passwordMatch <- compare (str (l_password b)) (password user) ;;
      if negb passwordMatch then ret invalid_credentials
      else ret login_successful
  end.

(** !loginId || !password *)
Definition login_incomplete (b : login_body) : bool :=
  negb (truthy (l_loginId b)) || negb (truthy (l_password b)).

(** app.post('/api/login', ...) *)
Definition login (b : login_body) (w : world) : response * world :=
  if login_incomplete b then (credentials_required, w)
  else
    match login_try b w with
    | (inr res, w1) => (res, w1)
    | (inl err, w1) => (login_catch err, w1)
    end.

End Handlers.

(** The error taxonomy, read off the responses the handlers send: a 400
    is a fault of the request (missing field, or duplicate), a 401 a
    credential failure, a 500 a fault of the server, which is a store
    failure unless it is the generic message. *)
Inductive outcome :=
| Success
| ValidationError
| DuplicateUserError
| InvalidCredentialsError
| StoreUnavailableError
| InternalError.

Definition outcome_of (r : response) : outcome :=
  if success r then Success
  else if (status r =? 401)%nat then InvalidCredentialsError
  else if (status r =? 400)%nat then
    if message r =? message already_exists then DuplicateUserError
    else ValidationError
  else if message r =? message server_error then InternalError
  else StoreUnavailableError.

End Server.

(** ** Predicates the statements use *)

Module Props.

Import Js Db Server.

(** The two module variables agree: a rejected [dbReady] comes with the
    [dbInitError] that makes the next [ensureDb] retry. *)
Definition consistent (w : world) : bool :=
  match dbReady w, dbInitError w with
  | Some (Rejected _), None => false
  | _, _ => true
  end.

(** The store is reachable and holds the users table with rows [t]. *)
Definition ready (w : world) (t : list user) : Prop :=
  fault (db w) = None /\ consistent w = true /\ users (db w) = Some t.

(** The rows stored so far (none while the table is missing). *)
Definition stored (w : world) : list user :=
  match users (db w) with
  | Some t => t
  | None => []
  end.

(** The parameters of the lookups among a list of pool operations. *)
Fixpoint lookups (ops : list pool_op) : list (string * string) :=
  match ops with
  | [] => []
  | Query (SelectUser a b) :: rest => (a, b) :: lookups rest
  | _ :: rest => lookups rest
  end.

(** [ensureDb] runs [initDatabase] when no initialisation is pending or
    done, or when the last one failed. *)
Definition initialises (w : world) : bool :=
  match dbInitError w, dbReady w with
  | Some _, _ => true
  | None, None => true
  | None, Some _ => false
  end.

(** user_id and email are each unique across the rows. *)
Definition unique_rows (t : list user) : Prop :=
  NoDup (map user_id t) /\ NoDup (map email t).

(** The rows INSERTed among a list of pool operations. *)
Fixpoint inserts (ops : list pool_op) : list sql :=
  match ops with
  | [] => []
  | Query (InsertUser u n e p h) :: rest => InsertUser u n e p h :: inserts rest
  | _ :: rest => inserts rest
  end.

End Props.

(** ** Concrete instances, to run the handlers *)

Module Sample.

Import Js Db Server.

(** A stand-in for bcrypt, to run the handlers: the hash is the data
    behind a marker, whatever the rounds and the salt. *)
Definition marker : Bcrypt := {|
  bcrypt_hash := fun data _ _ => String "$" data;
  bcrypt_compare := fun data encrypted =>
    match encrypted with
    | String "$" rest => data =? rest
    | _ => false
    end
|}.

Definition no_salt : nat -> string := fun _ => "".

(** A process that has just started, before a reachable, empty store. *)
Definition fresh : world :=
  mk_world (mk_store None None 1 0) None None no_salt 0 [].

(** A process whose store holds [t]. *)
Definition serving (t : list user) : world :=
  mk_world (mk_store None (Some t) 100 0) (Some Resolved) None no_salt 0 [].

(** A process whose store cannot be reached. *)
Definition failing (e : error) (t : list user) : world :=
  mk_world (mk_store (Some e) (Some t) 100 0) None None no_salt 0 [].

Definition alice_body : register_body :=
  mk_register_body (Some "alice1") (Some "Alice") (Some "a@x.com")
                   (Some "555-0100") (Some "Secr3t!").

Definition alice : user :=
  mk_user 1 "alice1" "Alice" "a@x.com" "555-0100" "$Secr3t!" 0.

(** A row whose email is the string another user picks as handle. *)
Definition carol : user :=
  mk_user 1 "carol" "Carol" "bob" "555-0101" "$carolpw" 0.

Definition bob_body : register_body :=
  mk_register_body (Some "bob") (Some "Bob") (Some "bob@x.com")
                   (Some "555-0102") (Some "bobpw").

(** A registration whose phone is a single space. *)
Definition blank_phone_body : register_body :=
  mk_register_body (Some "dave") (Some "Dave") (Some "d@x.com")
                   (Some " ") (Some "davepw").

Definition bob : user :=
  mk_user 2 "bob" "Bob" "bob@x.com" "555-0102" "$bobpw" 0.

Definition host_unknown : error :=
  mk_error (Some "ENOTFOUND") (Some "getaddrinfo ENOTFOUND db.example.com").

End Sample.

(** ** The rest of server.js: the health check *)

Module Ops.

Import Js Db Server.

(** [process.env] *)
Definition environment := string -> option string.

(** The [env] object of the health responses: [!!process.env.X]. *)
Record env_flags := mk_env_flags {
  hasHost : bool;
  hasUser : bool;
  hasPassword : bool;
  hasName : bool;
  hasPort : bool
}.

Definition flags (env : environment) : env_flags :=
  mk_env_flags (truthy (env "DB_HOST")) (truthy (env "DB_USER"))
               (truthy (env "DB_PASSWORD")) (truthy (env "DB_NAME"))
               (truthy (env "DB_PORT")).

(** The body of a health response; [h_error] and [h_code] are the keys
    [error] and [code], present in the 500 response only. *)
Record health_response := mk_health {
  h_status : nat;
  h_state : string;
  h_database : string;
  h_error : option string;
  h_code : option string;
  h_env : env_flags
}.

(** [pool.execute('SELECT 1 as healthy')]: like every [pool.execute],
    the call throws. *)
Definition select_healthy : io unit :=
  throw (not_a_function "pool.execute").

(** app.get('/api/health', ...) *)
Definition health (env : environment) (w : world) : health_response * world :=
  match (ensureDb ;; select_healthy) w with
  | (inr _, w1) => (mk_health 200 "ok" "connected" None None (flags env), w1)
  | (inl err, w1) =>
      (mk_health 500 "error" "disconnected" (err_message err) (err_code err)
                 (flags env), w1)
  end.

(** The store becomes reachable, or unreachable, between two requests. *)
Definition set_fault (f : option error) (w : world) : world :=
  set_db (mk_store f (users (db w)) (next_id (db w)) (clock (db w))) w.

End Ops.

(** ** The pages: script.js and the redirect of effects.js *)

Module Client.

Import Js Db Server.

(** The message box: [textContent] and the tokens of [className]. *)
Record box := mk_box {
  text : string;
  classes : list string
}.

(** What the submit handlers touch of the page: the message box, if the
    page has one; the submit button; the loading overlay; the navigation
    set on a timer, with its delay in milliseconds. *)
Record page := mk_page {
  message_box : option box;
  submit_disabled : bool;
  overlay_visible : bool;
  navigation : option (string * nat)
}.

(** showMessage(elementId, text, isError = true) *)
Definition showMessage (t : string) (isError : bool) (p : page) : page :=
  match message_box p with
  | None => p
  | Some _ =>
      mk_page (Some (mk_box t ["message"; if isError then "error" else "success"; "show"]))
              (submit_disabled p) (overlay_visible p) (navigation p)
  end.

(** hideMessage(elementId): [el.classList.remove('show')] *)
Definition hideMessage (p : page) : page :=
  match message_box p with
  | None => p
  | Some b =>
      mk_page (Some (mk_box (text b)
                            (filter (fun c => negb (c =? "show")) (classes b))))
              (submit_disabled p) (overlay_visible p) (navigation p)
  end.

Definition set_disabled (v : bool) (p : page) : page :=
  mk_page (message_box p) v (overlay_visible p) (navigation p).

(** setTimeout(() => { window.location.href = url; }, ms) *)
Definition navigate_later (url : string) (ms : nat) (p : page) : page :=
  mk_page (message_box p) (submit_disabled p) (overlay_visible p) (Some (url, ms)).

(** effects.js, [fastRedirect]: nothing for a url that is falsy or no
    string; else the loading overlay at once and the navigation after
    REDIRECT_DELAY_MS. *)
Definition fastRedirect (url : value) (p : page) : page :=
  if negb (truthy url) then p
  else navigate_later (str url) 800
         (mk_page (message_box p) (submit_disabled p) true (navigation p)).

(** [window.fastRedirect] when effects.js defined it, else the timer of
    script.js. *)
Definition redirect (effects : bool) (url : string) (p : page) : page :=
  if effects then fastRedirect (Some url) p else navigate_later url 800 p.

(** [data.message || fallback] *)
Definition message_or (m fallback : string) : string :=
  if m =? "" then fallback else m.

(** The fields of the register form, as typed. *)
Record register_form := mk_register_form {
  f_user_id : string;
  f_name : string;
  f_email : string;
  f_phone : string;
  f_password : string
}.

(** script.js, the payload of the register form. *)
Definition register_payload (f : register_form) : register_body :=
  mk_register_body (Some (trim (f_user_id f))) (Some (trim (f_name f)))
                   (Some (trim (f_email f))) (Some (trim (f_phone f)))
                   (Some (f_password f)).

(** The fields of the login form, as typed. *)
Record login_form := mk_login_form {
  f_loginId : string;
  f_login_password : string
}.

(** script.js, the payload of the login form. *)
Definition login_payload (f : login_form) : login_body :=
  mk_login_body (Some (trim (f_loginId f))) (Some (f_login_password f)).

Section Forms.

Context {B : Bcrypt}.

(** The submit listener of the register form, with the server behind
    [fetch].  [online] is false when [fetch] rejects; [effects] tells
    whether effects.js is on the page. *)
Definition submit_register (effects online : bool) (f : register_form)
    (p : page) (w : world) : page * world :=
  let p1 := set_disabled true (hideMessage p) in
  if online then
    let (data, w1) := register (register_payload f) w in
    if success data then
      (redirect effects "/login.html"
         (showMessage (message_or (message data)
                         "Registration successful. Redirecting...") false p1),
       w1)
    else
      (set_disabled false
         (showMessage (message_or (message data) "Registration failed.") true p1),
       w1)
  else
    (set_disabled false (showMessage "Network error. Please try again." true p1), w).

(** The submit listener of the login form. *)
Definition submit_login (effects online : bool) (f : login_form)
    (p : page) (w : world) : page * world :=
  let p1 := set_disabled true (hideMessage p) in
  if online then
    let (data, w1) := login (login_payload f) w in
    if success data then
      (redirect effects "https://netflix-clone-v.vercel.app/"
         (showMessage (message_or (message data)
                         "Login successful! Redirecting...") false p1),
       w1)
    else
      (set_disabled false
         (showMessage (message_or (message data) "Invalid credentials.") true p1),
       w1)
  else
    (set_disabled false (showMessage "Network error. Please try again." true p1), w).

End Forms.

(** A page as it is before a submit: a message box, the button enabled,
    nothing pending. *)
Definition idle : page :=
  mk_page (Some (mk_box "" ["message"])) false false None.

End Client.

(** ** Strings *)

Import Js Db Server Props.

Lemma trim_end_idempotent (s : string) : trim_end (trim_end s) = trim_end s.
Proof.
  induction s as [|c rest IH]; simpl; [reflexivity|].
  destruct (trim_end rest) as [|k kept] eqn:E.
  - destruct (is_white_space c) eqn:W; simpl; [reflexivity|].
    now rewrite W.
  - simpl in *. now rewrite IH.
Qed.

Lemma trim_start_head (s : string) :
  match trim_start s with
  | EmptyString => True
  | String c _ => is_white_space c = false
  end.
Proof.
  induction s as [|c rest IH]; simpl; [exact I|].
  destruct (is_white_space c) eqn:W; [exact IH|].
  simpl. exact W.
Qed.

Lemma trim_end_keeps_head (c : ascii) (rest : string) :
  is_white_space c = false -> exists kept, trim_end (String c rest) = String c kept.
Proof.
  intros W. simpl. destruct (trim_end rest) as [|k kept].
  - rewrite W. now exists EmptyString.
  - now exists (String k kept).
Qed.

(** Trimming twice is trimming once: the stored form of a field is its
    own trimmed form. *)
Lemma trim_idempotent (s : string) : trim (trim s) = trim s.
Proof.
  unfold trim. pose proof (trim_start_head s) as H.
  destruct (trim_start s) as [|c rest] eqn:E; [reflexivity|].
  destruct (trim_end_keeps_head c rest H) as [kept K].
  rewrite K. simpl trim_start. rewrite H. rewrite <- K.
  apply trim_end_idempotent.
Qed.

Lemma truthy_str (v : value) : truthy v = true -> v = Some (str v) /\ str v <> "".
Proof.
  destruct v as [s|]; simpl; [|discriminate].
  intros H. split; [reflexivity|].
  intros ->. discriminate.
Qed.

Lemma truthy_some (s : string) : s <> "" -> truthy (Some s) = true.
Proof.
  intros H. simpl. destruct (String.eqb_spec s ""); [contradiction|reflexivity].
Qed.

(** ** Bootstrap *)

Section Bootstrap.

Lemma initDatabase_unreachable (w : world) (e : error) :
  fault (db w) = Some e -> initDatabase w = (inl e, log Connect w).
Proof. intros F. unfold initDatabase, pool_connect. now rewrite F. Qed.

Lemma initDatabase_reachable (w : world) :
  fault (db w) = None ->
  initDatabase w =
  (inr tt, log Release
             (set_db (create_table_if_not_exists (db w))
                     (log (Query CreateUsersTable) (log Connect w)))).
Proof.
  intros F. unfold initDatabase, pool_connect. rewrite F.
  unfold finally, catch, client_query_create, throw. simpl db. rewrite F.
  reflexivity.
Qed.

(** An initialisation that already succeeded is not repeated. *)
Lemma ensureDb_settled (w : world) :
  dbReady w = Some Resolved -> dbInitError w = None -> ensureDb w = (inr tt, w).
Proof. intros R E. unfold ensureDb. rewrite E, R. simpl. now rewrite R. Qed.

(** [ensureDb], case by case. *)
Lemma ensureDb_reuses (w : world) :
  initialises w = false ->
  ensureDb w =
  (match dbReady w with Some (Rejected e) => inl e | _ => inr tt end, w).
Proof.
  unfold initialises, ensureDb. destruct w as [s r ie en dr tr]. simpl.
  destruct ie; [discriminate|]. destruct r as [[|e]|]; [reflexivity..|discriminate].
Qed.

Lemma ensureDb_fails (w : world) (e : error) :
  initialises w = true -> fault (db w) = Some e ->
  ensureDb w =
  (inl e, mk_world (db w) (Some (Rejected e)) (Some e) (entropy w) (draws w)
                   (trace w ++ [Connect])%list).
Proof.
  unfold initialises, ensureDb, initDatabase, pool_connect.
  destruct w as [s r ie en dr tr]. simpl. intros I F.
  destruct ie; simpl; [now rewrite F|].
  destruct r; [discriminate|]. simpl. now rewrite F.
Qed.

Lemma ensureDb_initialises (w : world) :
  initialises w = true -> fault (db w) = None ->
  ensureDb w =
  (inr tt, mk_world (create_table_if_not_exists (db w)) (Some Resolved) None
                    (entropy w) (draws w)
                    (trace w ++ [Connect; Query CreateUsersTable; Release])%list).
Proof.
  unfold initialises, ensureDb, initDatabase, pool_connect, finally, catch,
    client_query_create.
  destruct w as [s r ie en dr tr]. simpl. intros I F.
  destruct ie; simpl.
  - rewrite F. simpl. rewrite F.
    unfold log, set_db, set_dbReady; simpl. now rewrite <- !app_assoc.
  - destruct r; [discriminate|]. simpl. rewrite F. simpl. rewrite F.
    unfold log, set_db, set_dbReady; simpl. now rewrite <- !app_assoc.
Qed.

(** What [ensureDb] leaves when it returns. *)
Lemma ensureDb_returns (w w2 : world) :
  ensureDb w = (inr tt, w2) ->
  dbReady w2 = Some Resolved /\ dbInitError w2 = None /\
  fault (db w2) = fault (db w) /\ stored w2 = stored w /\
  entropy w2 = entropy w /\ draws w2 = draws w /\
  exists ops, trace w2 = (trace w ++ ops)%list /\ lookups ops = [] /\ inserts ops = [].
Proof.
  destruct (initialises w) eqn:I.
  - destruct (fault (db w)) as [e|] eqn:F.
    + rewrite (ensureDb_fails w e I F). discriminate.
    + rewrite (ensureDb_initialises w I F). intros H. injection H as <-.
      unfold stored, create_table_if_not_exists. simpl.
      repeat split.
      * destruct (users (db w)); simpl; assumption.
      * destruct (users (db w)) eqn:U; simpl; now rewrite ?U.
      * now exists [Connect; Query CreateUsersTable; Release].
  - rewrite (ensureDb_reuses w I).
    unfold initialises in I. destruct (dbInitError w) eqn:E; [discriminate|].
    destruct (dbReady w) as [[|e]|] eqn:R; try discriminate.
    intros H. injection H as <-. unfold stored. repeat split; try assumption.
    exists []. now rewrite app_nil_r.
Qed.

(** On a reachable store that holds the table, [ensureDb] returns and
    leaves the store as it is. *)
Lemma ensureDb_ready (w : world) (t : list user) :
  ready w t ->
  exists w2, ensureDb w = (inr tt, w2) /\ db w2 = db w /\
    dbReady w2 = Some Resolved /\ dbInitError w2 = None /\
    entropy w2 = entropy w /\ draws w2 = draws w /\
    exists ops, trace w2 = (trace w ++ ops)%list /\ lookups ops = [] /\ inserts ops = [].
Proof.
  intros (F & C & U). destruct (initialises w) eqn:I.
  - rewrite (ensureDb_initialises w I F). eexists. split; [reflexivity|].
    unfold create_table_if_not_exists. rewrite U. simpl. repeat split.
    now exists [Connect; Query CreateUsersTable; Release].
  - rewrite (ensureDb_reuses w I). unfold initialises in I. unfold consistent in C.
    destruct (dbInitError w) eqn:E; [discriminate|].
    destruct (dbReady w) as [[|e]|] eqn:R; try discriminate.
    exists w. repeat split; try assumption. exists []. now rewrite app_nil_r.
Qed.

(** While the store is unreachable, [ensureDb] either throws the fault,
    or, the initialisation being already done, returns without touching
    the store. *)
Lemma ensureDb_unreachable (w : world) (e : error) :
  fault (db w) = Some e -> consistent w = true ->
  (exists w2, ensureDb w = (inl e, w2)) \/ ensureDb w = (inr tt, w).
Proof.
  intros F C. destruct (initialises w) eqn:I.
  - left. rewrite (ensureDb_fails w e I F). eauto.
  - right. rewrite (ensureDb_reuses w I). unfold initialises in I.
    unfold consistent in C.
    destruct (dbInitError w) eqn:E; [discriminate|].
    destruct (dbReady w) as [[|e1]|] eqn:R; try discriminate; reflexivity.
Qed.

(** [ensureDb] keeps the two module variables in agreement. *)
Lemma ensureDb_consistent (w : world) :
  consistent w = true -> consistent (snd (ensureDb w)) = true.
Proof.
  intros C. destruct (initialises w) eqn:I.
  - destruct (fault (db w)) as [e|] eqn:F.
    + now rewrite (ensureDb_fails w e I F).
    + now rewrite (ensureDb_initialises w I F).
  - now rewrite (ensureDb_reuses w I).
Qed.

End Bootstrap.


(** ** The handlers *)

Section HandlerFacts.

Context {B : Bcrypt}.

Lemma ensureDb_trace (w : world) :
  exists ops, trace (snd (ensureDb w)) = (trace w ++ ops)%list /\
              lookups ops = [] /\ inserts ops = [].
Proof.
  destruct (initialises w) eqn:I.
  - destruct (fault (db w)) as [e|] eqn:F.
    + rewrite (ensureDb_fails w e I F). now exists [Connect].
    + rewrite (ensureDb_initialises w I F).
      now exists [Connect; Query CreateUsersTable; Release].
  - rewrite (ensureDb_reuses w I). exists []. now rewrite app_nil_r.
Qed.

Lemma ensureDb_keeps_rows (w : world) : stored (snd (ensureDb w)) = stored w.
Proof.
  destruct (initialises w) eqn:I.
  - destruct (fault (db w)) as [e|] eqn:F.
    + now rewrite (ensureDb_fails w e I F).
    + rewrite (ensureDb_initialises w I F). unfold stored. simpl.
      unfold create_table_if_not_exists.
      destruct (users (db w)) eqn:U; simpl; now rewrite ?U.
  - now rewrite (ensureDb_reuses w I).
Qed.

(** The catch blocks never report success. *)
Lemma register_catch_fails (e : error) : success (register_catch e) = false.
Proof.
  unfold register_catch.
  destruct (code_is e "ER_DUP_ENTRY"), (message_includes e "DB_PASSWORD"),
    (code_is e "ECONNREFUSED" || code_is e "ETIMEDOUT"); reflexivity.
Qed.

Lemma login_catch_is_500 (e : error) : status (login_catch e) = 500.
Proof.
  unfold login_catch.
  destruct (message_includes e "DB_PASSWORD"),
    (code_is e "ECONNREFUSED" || code_is e "ETIMEDOUT" ||
     code_is e "PROTOCOL_CONNECTION_LOST"),
    (code_is e "ENOTFOUND"); reflexivity.
Qed.

Lemma register_catch_is_400_or_500 (e : error) :
  status (register_catch e) = 400 \/ status (register_catch e) = 500.
Proof.
  unfold register_catch.
  destruct (code_is e "ER_DUP_ENTRY"), (message_includes e "DB_PASSWORD"),
    (code_is e "ECONNREFUSED" || code_is e "ETIMEDOUT"); simpl; auto.
Qed.

(** The world after [bcrypt.hash] drew its salt. *)
Lemma hash_draws (data : string) (rounds : nat) (w : world) :
  hash data rounds w =
  (inr (bcrypt_hash data rounds (entropy w (draws w))),
   mk_world (db w) (dbReady w) (dbInitError w) (entropy w) (S (draws w)) (trace w)).
Proof. reflexivity. Qed.

(** A complete registration, step by step: the bootstrap throws, and the
    catch block answers; or it returns, the hash is computed, and
    [pool.execute] throws the TypeError, which the catch block answers
    with the generic 500. *)
Lemma register_complete (b : register_body) (w : world) :
  register_incomplete b = false ->
  register b w =
  match ensureDb w with
  | (inl e, w2) => (register_catch e, w2)
  | (inr _, w2) => (server_error, snd (hash (str (r_password b)) 10 w2))
  end.
Proof.
  intros C. unfold register. rewrite C. unfold register_try, bind.
  destruct (ensureDb w) as [[e|[]] w2]; reflexivity.
Qed.

(** A complete login, step by step: the bootstrap throws, or
    [pool.execute] does. *)
Lemma login_complete (b : login_body) (w : world) :
  login_incomplete b = false ->
  login b w =
  match ensureDb w with
  | (inl e, w2) => (login_catch e, w2)
  | (inr _, w2) => (server_error, w2)
  end.
Proof.
  intros C. unfold login. rewrite C. unfold login_try, bind.
  destruct (ensureDb w) as [[e|[]] w2]; reflexivity.
Qed.

Lemma register_keeps_rows (b : register_body) (w : world) :
  stored (snd (register b w)) = stored w.
Proof.
  destruct (register_incomplete b) eqn:C.
  - unfold register. now rewrite C.
  - rewrite (register_complete b w C). pose proof (ensureDb_keeps_rows w) as K.
    destruct (ensureDb w) as [[e|[]] w2]; exact K.
Qed.

Lemma register_fails (b : register_body) (w : world) :
  success (fst (register b w)) = false.
Proof.
  destruct (register_incomplete b) eqn:C.
  - unfold register. now rewrite C.
  - rewrite (register_complete b w C).
    destruct (ensureDb w) as [[e|[]] w2]; simpl; [apply register_catch_fails|reflexivity].
Qed.

(** While the store is unreachable and the bootstrap has to run, a
    complete request ends in the catch block with the fault the store
    raised. *)
Lemma register_bootstrap_fails (b : register_body) (w : world) (e : error) :
  fault (db w) = Some e -> initialises w = true -> register_incomplete b = false ->
  fst (register b w) = register_catch e.
Proof.
  intros F I C. now rewrite (register_complete b w C), (ensureDb_fails w e I F).
Qed.

Lemma login_bootstrap_fails (b : login_body) (w : world) (e : error) :
  fault (db w) = Some e -> initialises w = true -> login_incomplete b = false ->
  fst (login b w) = login_catch e.
Proof.
  intros F I C. now rewrite (login_complete b w C), (ensureDb_fails w e I F).
Qed.

End HandlerFacts.

(** ** Registration *)

Section Registration.

Context {B : Bcrypt}.

Lemma register_incomplete_iff (b : register_body) :
  register_incomplete b = true <->
  exists v, In v [r_user_id b; r_name b; r_email b; r_phone b; r_password b] /\
            (v = None \/ v = Some "").
Proof.
  assert (T : forall v, negb (truthy v) = true <-> v = None \/ v = Some "").
  { intros [s|]; simpl.
    - rewrite negb_involutive, String.eqb_eq. split.
      + intros ->. now right.
      + intros [H|H]; congruence.
    - split; auto. }
  unfold register_incomplete. rewrite !orb_true_iff, !T. simpl. split.
  - intros [[[[H|H]|H]|H]|H]; eexists; (split; [|exact H]); tauto.
  - intros (v & I & H).
    destruct I as [<-|[<-|[<-|[<-|[<-|[]]]]]]; tauto.
Qed.

(** C4, as amended. A registration in which one of the five fields is
    absent or is the empty string as sent is answered 400 "All fields are
    required." and leaves the world as it was: nothing is asked of the
    pool and no row is added. *)
Theorem register_incomplete_rejected (b : register_body) (w : world) (v : value) :
  In v [r_user_id b; r_name b; r_email b; r_phone b; r_password b] ->
  v = None \/ v = Some "" ->
  register b w = (all_fields_required, w) /\
  outcome_of (fst (register b w)) = ValidationError /\
  trace (snd (register b w)) = trace w /\
  db (snd (register b w)) = db w.
Proof.
  intros I H.
  assert (C : register_incomplete b = true) by (apply register_incomplete_iff; eauto).
  unfold register. rewrite C. auto.
Qed.

End Registration.

Lemma register_incomplete_rejected_witness :
  register (B:=Sample.marker)
    (mk_register_body (Some "dave") (Some "Dave") (Some "d@x.com") (Some "") (Some "pw"))
    (Sample.serving []) = (all_fields_required, Sample.serving []).
Proof.
  apply (register_incomplete_rejected (B:=Sample.marker)
           (mk_register_body (Some "dave") (Some "Dave") (Some "d@x.com") (Some "")
                             (Some "pw"))
           (Sample.serving []) (Some "")).
  - simpl. tauto.
  - now right.
Defined.

(** C4, as stated, fails: a phone that is a single space is empty after
    trimming, yet the request passes the check; on a process that has
    just started the bootstrap goes through the pool, and the answer is
    the generic 500, not the 400 of a missing field.  No row is added. *)
Lemma whitespace_field_passes_the_check :
  trim " " = "" /\
  fst (register (B:=Sample.marker) Sample.blank_phone_body Sample.fresh) = server_error /\
  outcome_of (fst (register (B:=Sample.marker) Sample.blank_phone_body Sample.fresh))
  = InternalError /\
  trace (snd (register (B:=Sample.marker) Sample.blank_phone_body Sample.fresh))
  = [Connect; Query CreateUsersTable; Release] /\
  users (db (snd (register (B:=Sample.marker) Sample.blank_phone_body Sample.fresh)))
  = Some [].
Proof. repeat split. Qed.

(** C1, at the failing input: alice1 is stored, and a complete
    registration reuses that user_id.  [pool.execute] throws before any
    INSERT is sent, so no duplicate is ever detected: the answer is the
    generic 500 "Server error. Please try again.", the internal-error
    outcome, and the rows are what they were. *)
Theorem duplicate_registration_answered_500 :
  fst (register (B:=Sample.marker)
         (mk_register_body (Some " alice1 ") (Some "A") (Some "other@x.com")
                           (Some "1") (Some "pw"))
         (Sample.serving [Sample.alice]))
  = server_error /\
  outcome_of (fst (register (B:=Sample.marker)
         (mk_register_body (Some " alice1 ") (Some "A") (Some "other@x.com")
                           (Some "1") (Some "pw"))
         (Sample.serving [Sample.alice])))
  = InternalError /\
  stored (snd (register (B:=Sample.marker)
         (mk_register_body (Some " alice1 ") (Some "A") (Some "other@x.com")
                           (Some "1") (Some "pw"))
         (Sample.serving [Sample.alice])))
  = [Sample.alice] /\
  trace (snd (register (B:=Sample.marker)
         (mk_register_body (Some " alice1 ") (Some "A") (Some "other@x.com")
                           (Some "1") (Some "pw"))
         (Sample.serving [Sample.alice])))
  = [].
Proof. repeat split. Qed.

(** C2, at the failing input: a registration with five fresh fields on
    a process that has just started, before a reachable, empty store, is
    answered the generic 500 and stores nothing; the login that follows,
    by user_id or by email, with the same password, is answered the
    generic 500 as well. *)
Theorem fresh_registration_answered_500 :
  fst (register (B:=Sample.marker) Sample.alice_body Sample.fresh) = server_error /\
  users (db (snd (register (B:=Sample.marker) Sample.alice_body Sample.fresh)))
  = Some [] /\
  fst (login (B:=Sample.marker) (mk_login_body (Some "alice1") (Some "Secr3t!"))
         (snd (register (B:=Sample.marker) Sample.alice_body Sample.fresh)))
  = server_error /\
  fst (login (B:=Sample.marker) (mk_login_body (Some "a@x.com") (Some "Secr3t!"))
         (snd (register (B:=Sample.marker) Sample.alice_body Sample.fresh)))
  = server_error.
Proof. repeat split. Qed.


(** ** Login *)

Section Login.

Context {B : Bcrypt}.

(** C6, for every request and world: a login sends no lookup through
    the pool, and no INSERT.  The SELECT with the trimmed identifier in
    both parameters is built, but [pool.execute] throws before it is
    sent; all that can reach the pool is the bootstrap. *)
Theorem login_sends_no_lookup (b : login_body) (w : world) :
  exists ops,
    trace (snd (login b w)) = (trace w ++ ops)%list /\
    lookups ops = [] /\ inserts ops = [] /\
    status (fst (login b w)) <> 200 /\ status (fst (login b w)) <> 401.
Proof.
  destruct (login_incomplete b) eqn:C.
  - unfold login. rewrite C. exists []. rewrite app_nil_r. simpl.
    repeat split; discriminate.
  - rewrite (login_complete b w C).
    destruct (ensureDb_trace w) as (ops & T & K & J).
    destruct (ensureDb w) as [[e|[]] w2]; simpl in T |- *; exists ops;
      rewrite ?login_catch_is_500; repeat split; auto; discriminate.
Qed.

End Login.

(** C3, at the failing input: alice1 is stored with the hash of
    "Secr3t!".  A login with an identifier no row answers to, and a login
    as alice1 with a wrong password, are both answered the generic 500
    "Server error. Please try again.": the internal-error outcome, not the
    401 of invalid credentials. *)
Theorem login_failures_answered_500 :
  fst (login (B:=Sample.marker) (mk_login_body (Some "ghost") (Some "Secr3t!"))
         (Sample.serving [Sample.alice]))
  = server_error /\
  fst (login (B:=Sample.marker) (mk_login_body (Some "alice1") (Some "wrong"))
         (Sample.serving [Sample.alice]))
  = server_error /\
  outcome_of server_error = InternalError /\
  outcome_of server_error <> InvalidCredentialsError.
Proof. repeat split. discriminate. Qed.

(** C9, at the failing input: carol's row answers to "bob" by its email
    and bob's row by its user_id.  The login as "bob" never receives
    rows, so no first row is compared: the answer is the generic 500. *)
Theorem ambiguous_login_answered_500 :
  fst (login (B:=Sample.marker) (mk_login_body (Some "bob") (Some "bobpw"))
         (Sample.serving [Sample.carol; Sample.bob]))
  = server_error /\
  fst (login (B:=Sample.marker) (mk_login_body (Some "bob") (Some "carolpw"))
         (Sample.serving [Sample.carol; Sample.bob]))
  = server_error.
Proof. repeat split. Qed.

(** C10, at the failing input: a registration with the password
    "Secr3t!" is answered the generic 500 and stores no hash, and the
    login with "Secr3t! " (a trailing space) is answered the generic 500
    too, as is the login with the very password: no comparison is made. *)
Theorem padded_password_answered_500 :
  fst (register (B:=Sample.marker) Sample.alice_body Sample.fresh) = server_error /\
  stored (snd (register (B:=Sample.marker) Sample.alice_body Sample.fresh)) = [] /\
  fst (login (B:=Sample.marker) (mk_login_body (Some "alice1") (Some "Secr3t! "))
         (snd (register (B:=Sample.marker) Sample.alice_body Sample.fresh)))
  = server_error /\
  fst (login (B:=Sample.marker) (mk_login_body (Some "alice1") (Some "Secr3t!"))
         (snd (register (B:=Sample.marker) Sample.alice_body Sample.fresh)))
  = server_error.
Proof. repeat split. Qed.

(** ** Store failures *)

(** When the bootstrap has to run and the store is unreachable with a
    code both handlers know, both report a connection failure. *)
Lemma connection_refused_reported {B : Bcrypt}
    (rb : register_body) (lb : login_body) (w : world) (e : error) :
  fault (db w) = Some e -> initialises w = true ->
  register_incomplete rb = false -> login_incomplete lb = false ->
  message_includes e "DB_PASSWORD" = false ->
  code_is e "ECONNREFUSED" = true \/ code_is e "ETIMEDOUT" = true ->
  fst (register rb w) = connection_failed /\ fst (login lb w) = connection_failed.
Proof.
  intros F I R L M K.
  rewrite (register_bootstrap_fails rb w e F I R), (login_bootstrap_fails lb w e F I L).
  unfold register_catch, login_catch, code_is in *. rewrite M.
  destruct (err_code e) as [k|]; [|destruct K; discriminate].
  destruct K as [K|K]; apply String.eqb_eq in K; subst k; auto.
Qed.

(** When the bootstrap has to run and the host of the store does not
    resolve (ENOTFOUND), login reports it as such and register as the
    generic server error. *)
Lemma host_not_found_reported {B : Bcrypt}
    (rb : register_body) (lb : login_body) (w : world) (e : error) :
  fault (db w) = Some e -> initialises w = true ->
  register_incomplete rb = false -> login_incomplete lb = false ->
  message_includes e "DB_PASSWORD" = false -> err_code e = Some "ENOTFOUND" ->
  fst (register rb w) = server_error /\ fst (login lb w) = host_not_found.
Proof.
  intros F I R L M K.
  rewrite (register_bootstrap_fails rb w e F I R), (login_bootstrap_fails lb w e F I L).
  unfold register_catch, login_catch, code_is. now rewrite M, K.
Qed.

Lemma connection_refused_reported_witness :
  fst (register (B:=Sample.marker) Sample.alice_body
         (Sample.failing (mk_error (Some "ECONNREFUSED") (Some "connect ECONNREFUSED")) []))
  = connection_failed /\
  fst (login (B:=Sample.marker) (mk_login_body (Some "alice1") (Some "Secr3t!"))
         (Sample.failing (mk_error (Some "ECONNREFUSED") (Some "connect ECONNREFUSED")) []))
  = connection_failed.
Proof.
  apply (connection_refused_reported (B:=Sample.marker) Sample.alice_body
           (mk_login_body (Some "alice1") (Some "Secr3t!"))
           (Sample.failing (mk_error (Some "ECONNREFUSED") (Some "connect ECONNREFUSED")) [])
           (mk_error (Some "ECONNREFUSED") (Some "connect ECONNREFUSED"))).
  - reflexivity.
  - reflexivity.
  - reflexivity.
  - reflexivity.
  - reflexivity.
  - left. reflexivity.
Defined.

(** C7, at the failing input: the store's host does not resolve
    (ENOTFOUND).  Register answers with the generic "Server error. Please
    try again.", the internal-error outcome; login, on the same world,
    answers "Database host not found...", a store outcome. *)
Theorem register_misses_host_not_found :
  fst (register (B:=Sample.marker) Sample.alice_body
         (Sample.failing Sample.host_unknown []))
  = server_error /\
  outcome_of (fst (register (B:=Sample.marker) Sample.alice_body
                     (Sample.failing Sample.host_unknown [])))
  = InternalError /\
  fst (login (B:=Sample.marker) (mk_login_body (Some "alice1") (Some "Secr3t!"))
         (Sample.failing Sample.host_unknown []))
  = host_not_found /\
  outcome_of (fst (login (B:=Sample.marker)
                     (mk_login_body (Some "alice1") (Some "Secr3t!"))
                     (Sample.failing Sample.host_unknown [])))
  = StoreUnavailableError.
Proof. repeat split. Qed.

(** ** Schema bootstrap *)

(** C8. On a store that already holds the users table, [initDatabase],
    and [ensureDb] around it, leave the store as it is, reachable or not. *)
Theorem bootstrap_idempotent (w : world) (t : list user) :
  users (db w) = Some t ->
  db (snd (initDatabase w)) = db w /\ db (snd (ensureDb w)) = db w.
Proof.
  intros U.
  assert (K : create_table_if_not_exists (db w) = db w).
  { unfold create_table_if_not_exists. now rewrite U. }
  split.
  - destruct (fault (db w)) as [e|] eqn:F.
    + now rewrite (initDatabase_unreachable w e F).
    + rewrite (initDatabase_reachable w F). simpl. exact K.
  - destruct (initialises w) eqn:I.
    + destruct (fault (db w)) as [e|] eqn:F.
      * now rewrite (ensureDb_fails w e I F).
      * rewrite (ensureDb_initialises w I F). simpl. exact K.
    + now rewrite (ensureDb_reuses w I).
Qed.

Lemma bootstrap_idempotent_witness :
  db (snd (initDatabase (Sample.serving [Sample.alice])))
  = db (Sample.serving [Sample.alice]).
Proof.
  apply (bootstrap_idempotent (Sample.serving [Sample.alice]) [Sample.alice]).
  reflexivity.
Defined.

(** The table is created, empty, when it is missing and the store can be
    reached; running the bootstrap twice is running it once. *)
Lemma bootstrap_creates_missing_table (w : world) :
  fault (db w) = None -> users (db w) = None ->
  users (db (snd (initDatabase w))) = Some [].
Proof.
  intros F U. rewrite (initDatabase_reachable w F). simpl.
  unfold create_table_if_not_exists. now rewrite U.
Qed.

Lemma bootstrap_twice (w : world) :
  db (snd (initDatabase (snd (initDatabase w)))) = db (snd (initDatabase w)).
Proof.
  destruct (fault (db w)) as [e|] eqn:F.
  - rewrite (initDatabase_unreachable w e F). simpl.
    rewrite (initDatabase_unreachable (log Connect w) e F). reflexivity.
  - rewrite (initDatabase_reachable w F). simpl.
    set (w1 := log Release _).
    assert (F1 : fault (db w1) = None).
    { unfold w1, create_table_if_not_exists. simpl.
      destruct (users (db w)); simpl; assumption. }
    rewrite (initDatabase_reachable w1 F1). unfold w1. simpl.
    unfold create_table_if_not_exists.
    destruct (users (db w)) eqn:U; simpl; now rewrite ?U.
Qed.

(** ** The bootstrap as a state machine *)

Import Ops Client.

Section BootstrapLifecycle.

(** A bootstrap that failed is not remembered as final: while the store
    is unreachable, [ensureDb] throws the store's fault after one
    connection attempt; called again once the store is reachable, it
    initialises and returns, and the table exists with the rows it had. *)
Theorem ensureDb_retries_after_failure (w : world) (e : error) :
  initialises w = true -> fault (db w) = Some e ->
  let w1 := snd (ensureDb w) in
  fst (ensureDb w) = inl e /\
  trace w1 = (trace w ++ [Connect])%list /\
  fst (ensureDb w1) = inl e /\
  fst (ensureDb (set_fault None w1)) = inr tt /\
  users (db (snd (ensureDb (set_fault None w1)))) = Some (stored w) /\
  dbReady (snd (ensureDb (set_fault None w1))) = Some Resolved.
Proof.
  intros I F w1. unfold w1. rewrite (ensureDb_fails w e I F). simpl.
  repeat split.
  - rewrite (ensureDb_fails _ e); [reflexivity|reflexivity|exact F].
  - unfold create_table_if_not_exists, stored. simpl.
    now destruct (users (db w)).
Qed.

(** A bootstrap that succeeded is never repeated: whatever becomes of
    the store afterwards, [ensureDb] returns at once and asks nothing of
    the pool. *)
Theorem ensureDb_runs_once (w w1 : world) (s : store) :
  ensureDb w = (inr tt, w1) ->
  ensureDb (set_db s w1) = (inr tt, set_db s w1).
Proof.
  intros E. destruct (ensureDb_returns w w1 E) as (R & I & _).
  now apply ensureDb_settled.
Qed.

(** [initDatabase] asks the pool for one connection; it sends the CREATE
    and releases the client exactly when it obtained one, and throws the
    store's fault otherwise.  The module variables are not its business. *)
Theorem initDatabase_pool_discipline (w : world) :
  let w1 := snd (initDatabase w) in
  dbReady w1 = dbReady w /\ dbInitError w1 = dbInitError w /\
  match fault (db w) with
  | Some e =>
      fst (initDatabase w) = inl e /\ trace w1 = (trace w ++ [Connect])%list
  | None =>
      fst (initDatabase w) = inr tt /\
      trace w1 = (trace w ++ [Connect; Query CreateUsersTable; Release])%list /\
      users (db w1) = Some (stored w)
  end.
Proof.
  destruct (fault (db w)) as [e|] eqn:F; simpl.
  - rewrite (initDatabase_unreachable w e F). simpl. auto.
  - rewrite (initDatabase_reachable w F). simpl.
    rewrite <- !app_assoc. simpl. repeat split.
    unfold create_table_if_not_exists, stored.
    destruct (users (db w)) eqn:U; simpl; now rewrite ?U.
Qed.

End BootstrapLifecycle.

Lemma ensureDb_retries_after_failure_witness :
  fst (ensureDb
         (set_fault None
            (snd (ensureDb (Sample.failing Sample.host_unknown [Sample.alice])))))
  = inr tt.
Proof.
  apply (ensureDb_retries_after_failure
           (Sample.failing Sample.host_unknown [Sample.alice]) Sample.host_unknown).
  - reflexivity.
  - reflexivity.
Defined.

Lemma ensureDb_runs_once_witness :
  ensureDb
    (set_db (mk_store (Some Sample.host_unknown) None 1 0)
            (snd (ensureDb Sample.fresh)))
  = (inr tt, set_db (mk_store (Some Sample.host_unknown) None 1 0)
                    (snd (ensureDb Sample.fresh))).
Proof.
  apply (ensureDb_runs_once Sample.fresh (snd (ensureDb Sample.fresh))).
  reflexivity.
Defined.


(** ** Invariants *)

Section Invariants.

Context {B : Bcrypt}.

(** Registration keeps user_id and email unique, and the two module
    variables in agreement. *)
Lemma register_keeps_invariants (b : register_body) (w : world) :
  unique_rows (stored w) -> consistent w = true ->
  unique_rows (stored (snd (register b w))) /\
  consistent (snd (register b w)) = true.
Proof.
  intros N C. split; [now rewrite register_keeps_rows|].
  destruct (register_incomplete b) eqn:I.
  - unfold register. now rewrite I.
  - rewrite (register_complete b w I). pose proof (ensureDb_consistent w C) as C2.
    destruct (ensureDb w) as [[e|[]] w2]; exact C2.
Qed.

(** Login changes neither the rows nor the agreement. *)
Lemma login_keeps_rows (b : login_body) (w : world) :
  stored (snd (login b w)) = stored w.
Proof.
  destruct (login_incomplete b) eqn:C.
  - unfold login. now rewrite C.
  - rewrite (login_complete b w C). pose proof (ensureDb_keeps_rows w) as K.
    destruct (ensureDb w) as [[e|[]] w2]; exact K.
Qed.

End Invariants.

Lemma register_keeps_invariants_witness :
  unique_rows (stored (snd (register (B:=Sample.marker) Sample.bob_body
                              (Sample.serving [Sample.carol])))) /\
  consistent (snd (register (B:=Sample.marker) Sample.bob_body
                     (Sample.serving [Sample.carol]))) = true.
Proof.
  apply (register_keeps_invariants (B:=Sample.marker) Sample.bob_body
           (Sample.serving [Sample.carol])).
  - split; (constructor; [simpl; tauto | constructor]).
  - reflexivity.
Defined.

(** ** More on the two handlers *)

Section HandlerProperties.

Context {B : Bcrypt}.


(** The answers of the two handlers are fixed responses: whatever the
    request, the world and the error thrown, nothing of the error object
    reaches the caller, and [success] is true exactly with status 200. *)
Theorem responses_are_fixed (rb : register_body) (lb : login_body) (w : world) :
  let r := fst (register rb w) in
  let l := fst (login lb w) in
  In r [all_fields_required; registration_successful; already_exists;
        register_configuration_error; connection_failed; server_error] /\
  In l [credentials_required; login_successful; invalid_credentials;
        login_configuration_error; connection_failed; host_not_found;
        server_error] /\
  (success r = true <-> status r = 200) /\
  (success l = true <-> status l = 200).
Proof.
  intros r l.
  assert (R : In r [all_fields_required; registration_successful; already_exists;
        register_configuration_error; connection_failed; server_error]).
  { unfold r. destruct (register_incomplete rb) eqn:C.
    - unfold register. rewrite C. simpl. tauto.
    - rewrite (register_complete rb w C).
      destruct (ensureDb w) as [[e|[]] w2]; simpl fst; [|simpl; tauto].
      unfold register_catch.
      destruct (code_is e "ER_DUP_ENTRY"); [simpl; tauto|].
      destruct (message_includes e "DB_PASSWORD"); [simpl; tauto|].
      destruct (code_is e "ECONNREFUSED" || code_is e "ETIMEDOUT"); simpl; tauto. }
  assert (L : In l [credentials_required; login_successful; invalid_credentials;
        login_configuration_error; connection_failed; host_not_found;
        server_error]).
  { unfold l. destruct (login_incomplete lb) eqn:C.
    - unfold login. rewrite C. simpl. tauto.
    - rewrite (login_complete lb w C).
      destruct (ensureDb w) as [[e|[]] w2]; simpl fst; [|simpl; tauto].
      unfold login_catch.
      destruct (message_includes e "DB_PASSWORD"); [simpl; tauto|].
      destruct (code_is e "ECONNREFUSED" || code_is e "ETIMEDOUT" ||
                code_is e "PROTOCOL_CONNECTION_LOST"); [simpl; tauto|].
      destruct (code_is e "ENOTFOUND"); simpl; tauto. }
  assert (A : forall x, In x [all_fields_required; registration_successful;
        already_exists; register_configuration_error; connection_failed;
        server_error; credentials_required; login_successful;
        invalid_credentials; login_configuration_error; host_not_found] ->
        (success x = true <-> status x = 200)).
  { intros x H. simpl in H.
    repeat (destruct H as [<-|H];
            [simpl; split; intros Q; (reflexivity || discriminate)|]).
    contradiction. }
  repeat split; try assumption; apply A; simpl in R, L |- *; tauto.
Qed.

(** White space around the identifier does not matter to login: the
    identifier as sent and its trimmed form (when that is not empty) get
    the same answer and leave the same world. *)
Theorem login_trims_identifier (i : string) (pw : value) (w : world) :
  trim i <> "" ->
  login (mk_login_body (Some i) pw) w = login (mk_login_body (Some (trim i)) pw) w.
Proof.
  intros T.
  assert (I : i <> "") by (intros ->; now apply T).
  unfold login, login_incomplete. simpl l_loginId. simpl l_password.
  rewrite (truthy_some i I), (truthy_some (trim i) T).
  unfold login_try. simpl l_loginId. simpl str. now rewrite trim_idempotent.
Qed.

(** A login in which the identifier or the password is absent or empty
    is answered 400 "User ID/Email and password are required." and leaves
    the world as it was. *)
Theorem login_incomplete_rejected (b : login_body) (w : world) (v : value) :
  In v [l_loginId b; l_password b] -> v = None \/ v = Some "" ->
  login b w = (credentials_required, w).
Proof.
  intros I H. unfold login.
  assert (C : login_incomplete b = true).
  { unfold login_incomplete. apply orb_true_iff.
    destruct I as [<-|[<-|[]]]; [left|right]; destruct H as [-> | ->]; reflexivity. }
  now rewrite C.
Qed.


(** Neither handler ever answers from the rows: whatever the request
    and the world, register does not answer success, and login answers
    neither success nor invalid credentials; every answer is a 400 or a
    500, and a 400 of login is the missing-field answer. *)
Theorem handlers_never_reach_the_rows (rb : register_body) (lb : login_body) (w : world) :
  success (fst (register rb w)) = false /\
  (status (fst (register rb w)) = 400 \/ status (fst (register rb w)) = 500) /\
  (fst (login lb w) = credentials_required \/ status (fst (login lb w)) = 500).
Proof.
  split; [apply register_fails|]. split.
  - destruct (register_incomplete rb) eqn:C.
    + unfold register. rewrite C. now left.
    + rewrite (register_complete rb w C).
      destruct (ensureDb w) as [[e|[]] w2]; simpl;
        [apply register_catch_is_400_or_500 | now right].
  - destruct (login_incomplete lb) eqn:C.
    + unfold login. rewrite C. now left.
    + right. rewrite (login_complete lb w C).
      destruct (ensureDb w) as [[e|[]] w2]; simpl;
        [apply login_catch_is_500 | reflexivity].
Qed.

(** On a reachable store that holds the table, whatever its rows, every
    complete registration and every complete login is answered the
    generic 500 "Server error. Please try again."; the store is left as
    it is, and the registration has drawn one salt for a hash that goes
    nowhere. *)
Theorem ready_store_answers_server_error
    (rb : register_body) (lb : login_body) (w : world) (t : list user) :
  ready w t -> register_incomplete rb = false -> login_incomplete lb = false ->
  fst (register rb w) = server_error /\ db (snd (register rb w)) = db w /\
  draws (snd (register rb w)) = S (draws w) /\
  fst (login lb w) = server_error /\ db (snd (login lb w)) = db w.
Proof.
  intros R CR CL.
  destruct (ensureDb_ready w t R) as (w2 & E & D & _ & _ & _ & DR & _).
  rewrite (register_complete rb w CR), (login_complete lb w CL), E. simpl.
  rewrite D, DR. auto.
Qed.

End HandlerProperties.

Lemma login_trims_identifier_witness :
  login (B:=Sample.marker) (mk_login_body (Some "  alice1 ") (Some "Secr3t!"))
        (Sample.serving [Sample.alice])
  = login (B:=Sample.marker) (mk_login_body (Some (trim "  alice1 ")) (Some "Secr3t!"))
          (Sample.serving [Sample.alice]).
Proof.
  apply (login_trims_identifier (B:=Sample.marker) "  alice1 " (Some "Secr3t!")
           (Sample.serving [Sample.alice])).
  discriminate.
Defined.

Lemma login_incomplete_rejected_witness :
  login (B:=Sample.marker) (mk_login_body (Some "alice1") None)
        (Sample.serving [Sample.alice])
  = (credentials_required, Sample.serving [Sample.alice]).
Proof.
  apply (login_incomplete_rejected (B:=Sample.marker)
           (mk_login_body (Some "alice1") None) (Sample.serving [Sample.alice]) None).
  - simpl. tauto.
  - now left.
Defined.

Lemma ready_store_answers_server_error_witness :
  fst (register (B:=Sample.marker) Sample.bob_body (Sample.serving [Sample.carol]))
  = server_error /\
  fst (login (B:=Sample.marker) (mk_login_body (Some "carol") (Some "carolpw"))
         (Sample.serving [Sample.carol]))
  = server_error.
Proof.
  destruct (ready_store_answers_server_error (B:=Sample.marker) Sample.bob_body
              (mk_login_body (Some "carol") (Some "carolpw"))
              (Sample.serving [Sample.carol]) [Sample.carol]) as (R & _ & _ & L & _).
  - repeat split.
  - reflexivity.
  - reflexivity.
  - split; [exact R|exact L].
Defined.

(** ** Health check *)

(** The health check never answers 200: it answers 500 "disconnected"
    whatever the store.  With the module variables in agreement, the
    error it returns is the store's when the bootstrap ran into an
    unreachable store, and otherwise the TypeError of [pool.execute],
    which has no code.  The flags of the environment are the truthiness
    of the five variables. *)
Theorem health_always_disconnected (env : environment) (w : world) :
  consistent w = true ->
  let h := fst (health env w) in
  h_status h = 500 /\ h_state h = "error" /\ h_database h = "disconnected" /\
  h_env h = flags env /\
  (fault (db w) = None ->
   h_error h = Some "pool.execute is not a function" /\ h_code h = None) /\
  (forall e, fault (db w) = Some e -> initialises w = true ->
   h_error h = err_message e /\ h_code h = err_code e).
Proof.
  intros C h. unfold h, health, bind, select_healthy, throw.
  destruct (ensureDb w) as [[e|[]] w2] eqn:E; simpl;
    do 4 (split; [reflexivity|]); split.
  - intros F. destruct (initialises w) eqn:I.
    + rewrite (ensureDb_initialises w I F) in E. discriminate.
    + rewrite (ensureDb_reuses w I) in E. unfold initialises in I.
      unfold consistent in C.
      destruct (dbInitError w); [discriminate|].
      destruct (dbReady w) as [[|e1]|]; discriminate.
  - intros e0 F I. rewrite (ensureDb_fails w e0 I F) in E.
    injection E as <- _. now split.
  - intros _. now split.
  - intros e0 F I. rewrite (ensureDb_fails w e0 I F) in E. discriminate.
Qed.

(** The health check never changes the rows. *)
Theorem health_keeps_rows (env : environment) (w : world) :
  stored (snd (health env w)) = stored w.
Proof.
  unfold health, bind. pose proof (ensureDb_keeps_rows w) as K.
  destruct (ensureDb w) as [[e|[]] w2]; simpl in K |- *; exact K.
Qed.

Lemma health_always_disconnected_witness :
  h_status (fst (health (fun _ => None) Sample.fresh)) = 500 /\
  h_error (fst (health (fun _ => None) Sample.fresh))
  = Some "pool.execute is not a function".
Proof.
  pose proof (health_always_disconnected (fun _ => None) Sample.fresh eq_refl) as H.
  simpl in H. destruct H as (S & _ & _ & _ & F & _). split; [exact S|].
  now destruct (F eq_refl).
Defined.

(** ** The forms in front of the handlers *)

Section Forms.

Context {B : Bcrypt}.

Lemma payload_complete (f : register_form) :
  register_incomplete (register_payload f) = false <->
  trim (f_user_id f) <> "" /\ trim (f_name f) <> "" /\ trim (f_email f) <> "" /\
  trim (f_phone f) <> "" /\ f_password f <> "".
Proof.
  unfold register_incomplete, register_payload. simpl.
  rewrite !orb_false_iff, !negb_false_iff, !negb_true_iff, !String.eqb_neq. tauto.
Qed.

(** Through the register form a blank field never reaches the store: if
    one of the four text fields is empty or white space only, or the
    password is empty, the server answers "All fields are required.",
    the page shows it as an error, the button is enabled again, nothing
    is navigated to, and the world is as it was. *)
Theorem blank_form_field_rejected (effects : bool) (f : register_form)
    (p : page) (w : world) :
  trim (f_user_id f) = "" \/ trim (f_name f) = "" \/ trim (f_email f) = "" \/
  trim (f_phone f) = "" \/ f_password f = "" ->
  let p1 := fst (submit_register effects true f p w) in
  snd (submit_register effects true f p w) = w /\
  submit_disabled p1 = false /\ navigation p1 = navigation p /\
  (message_box p <> None ->
   message_box p1 = Some (mk_box "All fields are required." ["message"; "error"; "show"])).
Proof.
  intros H p1.
  assert (C : register_incomplete (register_payload f) = true).
  { destruct (register_incomplete (register_payload f)) eqn:E; [reflexivity|].
    apply payload_complete in E. tauto. }
  unfold p1, submit_register, register. rewrite C.
  unfold showMessage, hideMessage, set_disabled.
  destruct p as [[b|] sd ov nav]; simpl; repeat split; congruence.
Qed.



(** With the handlers as they are, a complete form on a page with a
    message box always ends the same way when the store is reachable and
    initialised: the box shows "Server error. Please try again." as an
    error, the button is enabled again, and nothing is navigated to. *)
Theorem forms_show_server_error (effects : bool) (rf : register_form) (lf : login_form)
    (b : box) (w : world) (t : list user) :
  ready w t ->
  register_incomplete (register_payload rf) = false ->
  login_incomplete (login_payload lf) = false ->
  let p := mk_page (Some b) false false None in
  fst (submit_register effects true rf p w) =
    mk_page (Some (mk_box "Server error. Please try again." ["message"; "error"; "show"]))
            false false None /\
  fst (submit_login effects true lf p w) =
    mk_page (Some (mk_box "Server error. Please try again." ["message"; "error"; "show"]))
            false false None.
Proof.
  intros R CR CL p.
  destruct (ensureDb_ready w t R) as (w2 & E & _).
  unfold submit_register, submit_login.
  rewrite (register_complete _ w CR), (login_complete _ w CL), E. simpl.
  split; reflexivity.
Qed.

End Forms.

Lemma blank_form_field_rejected_witness :
  message_box (fst (submit_register (B:=Sample.marker) true true
                      (mk_register_form "dave" "Dave" "d@x.com" "   " "davepw")
                      idle (Sample.serving [])))
  = Some (mk_box "All fields are required." ["message"; "error"; "show"]).
Proof.
  apply (blank_form_field_rejected (B:=Sample.marker) true
           (mk_register_form "dave" "Dave" "d@x.com" "   " "davepw")
           idle (Sample.serving [])).
  - right. right. right. left. reflexivity.
  - discriminate.
Defined.

Lemma forms_show_server_error_witness :
  fst (submit_register (B:=Sample.marker) true true
         (mk_register_form " dave " "Dave" "d@x.com" " 555 " "davepw")
         idle (Sample.serving []))
  = mk_page (Some (mk_box "Server error. Please try again." ["message"; "error"; "show"]))
            false false None.
Proof.
  apply (forms_show_server_error (B:=Sample.marker) true
           (mk_register_form " dave " "Dave" "d@x.com" " 555 " "davepw")
           (mk_login_form "dave" "davepw") (mk_box "" ["message"]) (Sample.serving []) []).
  - repeat split.
  - reflexivity.
  - reflexivity.
Defined.
